(** * e3.testsuite.testcase_finder: testcase discovery

    A shallow embedding of [src/e3/testsuite/testcase_finder.py]:
    the [ParsedTest] record, the [ProbingError] exception, the [TestFinder]
    interface and its two implementations, [YAMLTestFinder] and
    [AdaCoreLegacyTestFinder].

    Python code raises exceptions and calls services that live outside the
    module (the testsuite's naming function and driver registry, the YAML
    loader of [e3.yaml], [Env]).  Both are explicit here: a computation
    reads the imported services, takes the log of the external calls made
    so far, and gives a result (a returned value or a raised exception)
    with the extended log. *)

From Stdlib Require Import Ascii String ZArith.
From stdpp Require Import base option list gmap strings.

Local Open Scope Z_scope.
#[local] Set Warnings "-register-all".

(** ** Python values

    The values a YAML document loads to: [None], booleans, integers,
    strings, sequences and mappings.  (Floats and dates are left out: they
    are neither [None] nor mappings and can be hashed, which is all that
    [probe] asks of a value, so they fare as the integers do.)  Keys of a
    mapping are the hashable scalars; a boolean key hashes and compares as
    the integer 0 or 1, so [KInt] stands for both.  Strings are strings of
    8-bit characters. *)

Inductive pykey : Type :=
  | KNone
  | KInt (z : Z)
  | KStr (s : string).

#[global] Instance pykey_eq_dec : EqDecision pykey.
Proof. solve_decision. Defined.

Definition pykey_encode (k : pykey) : unit + Z + string :=
  match k with
  | KNone => inl (inl tt)
  | KInt z => inl (inr z)
  | KStr s => inr s
  end.

Definition pykey_decode (x : unit + Z + string) : pykey :=
  match x with
  | inl (inl _) => KNone
  | inl (inr z) => KInt z
  | inr s => KStr s
  end.

#[global] Instance pykey_countable : Countable pykey.
Proof.
  apply (inj_countable' pykey_encode pykey_decode).
  intros []; reflexivity.
Defined.

Inductive pyval : Type :=
  | PyNone
  | PyBool (b : bool)
  | PyInt (z : Z)
  | PyStr (s : string)
  | PyList (l : list pyval)
  | PyDict (d : gmap pykey pyval).

(** [isinstance(v, collections.abc.Mapping)] *)
Definition is_Mapping (v : pyval) : bool :=
  match v with
  | PyDict _ => true
  | _ => false
  end.

(** [v.get(key)] on a mapping, with the default [None] of [dict.get]. *)
Definition dict_get (d : gmap pykey pyval) (key : string) : pyval :=
  default PyNone (d !! KStr key).

(** ** Exceptions and results *)

Inductive exn : Type :=
  | ProbingError (msg : string)
  | YamlError (msg : string)
  | KeyError (key : pyval)
  | TypeError (msg : string)
  | NotImplementedError
  | OtherError (name : string).

Inductive result (A : Type) : Type :=
  | Returned (a : A)
  | Raised (e : exn).
Arguments Returned {A} a.
Arguments Raised {A} e.

(** ** The log of external calls *)

Inductive call : Type :=
  | CallTestName (dirpath : string)
  | CallEnvToDict
  | CallLoadWithConfig (filename : string) (config : pyval)
  | CallDriverLookup (key : pyval).

(** ** The imported services

    [Env().to_dict()], the snapshot of the environment, and
    [e3.yaml.load_with_config(filename, config)], which gives the loaded
    value or the exception the loader raises. *)

Record Services : Type := mkServices {
  Env_to_dict : pyval;
  load_with_config : string -> pyval -> result pyval;
}.

(** ** The monad of probing computations *)

Definition M (A : Type) : Type := Services -> list call -> result A * list call.

#[global] Instance M_ret : MRet M := fun A a svc log => (Returned a, log).

#[global] Instance M_bind : MBind M := fun A B f m svc log =>
  match m svc log with
  | (Returned a, log') => f a svc log'
  | (Raised e, log') => (Raised e, log')
  end.

(** [raise e] *)
Definition raise {A : Type} (e : exn) : M A := fun svc log => (Raised e, log).

(** An external call: the call is logged, then its result is delivered. *)
Definition external {A : Type} (c : Services -> call) (r : Services -> result A) : M A :=
  fun svc log => (r svc, log ++ [c svc]).

(** [try: body  except <the handler's domain>: handler e].  An exception
    the handler does not take ([None]) goes on to the caller. *)
Definition try_except {A : Type} (body : M A) (handler : exn -> option (M A)) : M A :=
  fun svc log =>
    match body svc log with
    | (Returned a, log') => (Returned a, log')
    | (Raised e, log') =>
        match handler e with
        | Some h => h svc log'
        | None => (Raised e, log')
        end
    end.

Definition call_Env_to_dict : M pyval :=
  external (fun _ => CallEnvToDict) (fun svc => Returned (Env_to_dict svc)).

Definition call_load_with_config (filename : string) (config : pyval) : M pyval :=
  external (fun _ => CallLoadWithConfig filename config)
           (fun svc => load_with_config svc filename config).

(** ** [os.path] (posixpath) *)

Definition sep : ascii := "/"%char.

Fixpoint endswith_sep (p : string) : bool :=
  match p with
  | EmptyString => false
  | String c EmptyString => Ascii.eqb c sep
  | String _ rest => endswith_sep rest
  end.

Definition startswith_sep (p : string) : bool :=
  match p with
  | String c _ => Ascii.eqb c sep
  | EmptyString => false
  end.

(** [os.path.join(a, b)] for one component [b]: [b] alone when it is
    absolute, else [a] and [b] with one separator between them unless [a] is
    empty or ends with one already. *)
Definition os_path_join (a b : string) : string :=
  if startswith_sep b then b
  else if orb (String.eqb a "") (endswith_sep a) then a +:+ b
  else a +:+ String sep b.

(** [p.rfind(ch)]: the index of the last [ch] in [p], -1 when there is none.
    [i] is the index of the head of [p], [last] the best index so far. *)
Fixpoint rfind_from (ch : ascii) (p : string) (i last : Z) : Z :=
  match p with
  | EmptyString => last
  | String c rest => rfind_from ch rest (i + 1) (if Ascii.eqb c ch then i else last)
  end.

Definition rfind (ch : ascii) (p : string) : Z := rfind_from ch p 0 (-1).

(** [p[i:]] for [0 <= i]. *)
Fixpoint slice_from (i : nat) (p : string) : string :=
  match i, p with
  | O, _ => p
  | S i', String _ rest => slice_from i' rest
  | S _, EmptyString => EmptyString
  end.

(** [os.path.basename(p)]: [i = p.rfind('/') + 1; return p[i:]]. *)
Definition os_path_basename (p : string) : string :=
  let i := rfind sep p + 1 in
  slice_from (Z.to_nat i) p.

(** ** Regular expressions ([re])

    The fragment of Python's [re] that [TN_RE] is written in: character
    classes given by ranges, concatenation and the bounded repetition
    [{n}].  [Void] and [Alt] are there for the derivatives.  A pattern
    denotes a set of strings ([matches]); [re_match] is [Pattern.match]:
    it succeeds when some prefix of the subject is in that set. *)

Inductive regex : Type :=
  | Void
  | Eps
  | Class (ranges : list (ascii * ascii))
  | Seq (r1 r2 : regex)
  | Alt (r1 r2 : regex).

(** [r{n}] *)
Fixpoint Repeat (r : regex) (n : nat) : regex :=
  match n with
  | O => Eps
  | S n' => Seq r (Repeat r n')
  end.

Definition in_range (c : ascii) (rg : ascii * ascii) : bool :=
  (N_of_ascii (fst rg) <=? N_of_ascii c)%N && (N_of_ascii c <=? N_of_ascii (snd rg))%N.

Definition in_class (c : ascii) (ranges : list (ascii * ascii)) : bool :=
  existsb (in_range c) ranges.

Inductive matches : regex -> string -> Prop :=
  | matches_eps : matches Eps ""
  | matches_class ranges c :
      in_class c ranges = true -> matches (Class ranges) (String c "")
  | matches_seq r1 r2 s1 s2 :
      matches r1 s1 -> matches r2 s2 -> matches (Seq r1 r2) (s1 +:+ s2)
  | matches_alt_l r1 r2 s : matches r1 s -> matches (Alt r1 r2) s
  | matches_alt_r r1 r2 s : matches r2 s -> matches (Alt r1 r2) s.

Fixpoint nullable (r : regex) : bool :=
  match r with
  | Void => false
  | Eps => true
  | Class _ => false
  | Seq r1 r2 => nullable r1 && nullable r2
  | Alt r1 r2 => nullable r1 || nullable r2
  end.

Fixpoint deriv (c : ascii) (r : regex) : regex :=
  match r with
  | Void => Void
  | Eps => Void
  | Class ranges => if in_class c ranges then Eps else Void
  | Seq r1 r2 =>
      if nullable r1 then Alt (Seq (deriv c r1) r2) (deriv c r2)
      else Seq (deriv c r1) r2
  | Alt r1 r2 => Alt (deriv c r1) (deriv c r2)
  end.

(** [r.match(s) is not None]: the match is anchored at the start of [s]
    and need not reach its end. *)
Fixpoint re_match (r : regex) (s : string) : bool :=
  nullable r ||
  match s with
  | EmptyString => false
  | String c rest => re_match (deriv c r) rest
  end.

(** The pieces of the ticket-number pattern: [[0-9A-Z]], [[0-9]], [-] and
    [[A-Z0-9]]. *)
Definition cls_0_9A_Z : regex := Class [("0", "9"); ("A", "Z")]%char.
Definition cls_0_9 : regex := Class [("0", "9")]%char.
Definition lit_hyphen : regex := Class [("-", "-")]%char.
Definition cls_A_Z0_9 : regex := Class [("A", "Z"); ("0", "9")]%char.

(** [TN_RE = re.compile("[0-9A-Z]{2}[0-9]{2}-[A-Z0-9]{3}")] *)
Definition TN_RE : regex :=
  Seq (Repeat cls_0_9A_Z 2)
    (Seq (Repeat cls_0_9 2)
      (Seq lit_hyphen (Repeat cls_A_Z0_9 3))).

(** Some prefix of [s] is in the language of [r]. *)
Definition matches_prefix (r : regex) (s : string) : Prop :=
  exists p rest, s = p +:+ rest /\ matches r p.

(** The ticket-number convention in words: two characters that are
    upper-case letters or digits, two digits, a hyphen, three characters
    that are upper-case letters or digits; what follows is free. *)
Definition is_upper_or_digit (c : ascii) : bool :=
  in_range c ("0", "9")%char || in_range c ("A", "Z")%char.
Definition is_digit (c : ascii) : bool := in_range c ("0", "9")%char.

Definition ticket_number_prefix (s : string) : bool :=
  match s with
  | String c1 (String c2 (String c3 (String c4 (String c5
      (String c6 (String c7 (String c8 _))))))) =>
      is_upper_or_digit c1 && is_upper_or_digit c2 &&
      is_digit c3 && is_digit c4 && Ascii.eqb c5 "-" &&
      is_upper_or_digit c6 && is_upper_or_digit c7 && is_upper_or_digit c8
  | _ => false
  end.

(** ** [ParsedTest] *)

(** [TestDriver] is the type of driver classes ([Type[TestDriver]]). *)
Record ParsedTest (TestDriver : Type) : Type := mkParsedTest {
  test_name : string;
  driver_cls : option TestDriver;
  test_env : pyval;
  test_dir : string;
  test_matcher : option string;
}.
Arguments mkParsedTest {TestDriver} _ _ _ _ _.
Arguments test_name {TestDriver} _.
Arguments driver_cls {TestDriver} _.
Arguments test_env {TestDriver} _.
Arguments test_dir {TestDriver} _.
Arguments test_matcher {TestDriver} _.

(** [TestFinderResult = Union[Optional[ParsedTest], List[ParsedTest]]] *)
Inductive TestFinderResult (TestDriver : Type) : Type :=
  | ResNone
  | ResTest (t : ParsedTest TestDriver)
  | ResList (ts : list (ParsedTest TestDriver)).
Arguments ResNone {TestDriver}.
Arguments ResTest {TestDriver} t.
Arguments ResList {TestDriver} ts.

(** What [probe] uses of [TestsuiteCore]: the method [test_name] and the
    property [test_driver_map]. *)
Record TestsuiteCore (TestDriver : Type) : Type := mkTestsuiteCore {
  testsuite_test_name : string -> string;
  test_driver_map : gmap string TestDriver;
}.
Arguments mkTestsuiteCore {TestDriver} _ _.
Arguments testsuite_test_name {TestDriver} _ _.
Arguments test_driver_map {TestDriver} _.

(** ** [TestFinder] *)

Class TestFinder (TestDriver : Type) (F : Type) : Type := {
  test_dedicated_directory : F -> bool;
  probe : F -> TestsuiteCore TestDriver -> string -> list string -> list string ->
          M (TestFinderResult TestDriver);
}.

(** The finders have no state of their own, but for the driver class of
    the legacy one. *)
Inductive TestFinderBase : Type := mkTestFinder.

Inductive YAMLTestFinder : Type := mkYAMLTestFinder.

Record AdaCoreLegacyTestFinder (TestDriver : Type) : Type := mkAdaCoreLegacyTestFinder {
  finder_driver_cls : TestDriver;
}.
Arguments mkAdaCoreLegacyTestFinder {TestDriver} _.
Arguments finder_driver_cls {TestDriver} _.

Section Finders.

Context {TestDriver : Type}.

(** [ParsedTest.__init__]; [test_matcher] defaults to [None]. *)
Definition ParsedTest_init (test_name : string) (driver_cls : option TestDriver)
    (test_env : pyval) (test_dir : string) (test_matcher : option string)
    : ParsedTest TestDriver :=
  {| test_name := test_name;
     driver_cls := driver_cls;
     test_env := test_env;
     test_dir := test_dir;
     test_matcher := test_matcher |}.

Definition call_test_name (testsuite : TestsuiteCore TestDriver) (dirpath : string) : M string :=
  external (fun _ => CallTestName dirpath)
           (fun _ => Returned (testsuite_test_name testsuite dirpath)).

(** [d[key]] on the registry, a [dict] with string keys: an unhashable key
    is a [TypeError], a key that is not there a [KeyError]. *)
Definition registry_getitem (d : gmap string TestDriver) (key : pyval) : result TestDriver :=
  match key with
  | PyList _ => Raised (TypeError "unhashable type: 'list'")
  | PyDict _ => Raised (TypeError "unhashable type: 'dict'")
  | PyStr name =>
      match d !! name with
      | Some cls => Returned cls
      | None => Raised (KeyError key)
      end
  | _ => Raised (KeyError key)
  end.

Definition call_driver_lookup (testsuite : TestsuiteCore TestDriver) (key : pyval)
    : M TestDriver :=
  external (fun _ => CallDriverLookup key)
           (fun _ => registry_getitem (test_driver_map testsuite) key).

(** The base class: [test_dedicated_directory] is [True], [probe] is not
    implemented. *)
Definition TestFinder_test_dedicated_directory {F : Type} (self : F) : bool := true.

Definition TestFinder_probe (self : TestFinderBase) (testsuite : TestsuiteCore TestDriver)
    (dirpath : string) (dirnames filenames : list string)
    : M (TestFinderResult TestDriver) :=
  raise NotImplementedError.

#[global] Instance TestFinderBase_finder : TestFinder TestDriver TestFinderBase := {|
  test_dedicated_directory := TestFinder_test_dedicated_directory;
  probe := TestFinder_probe;
|}.

(** ** [YAMLTestFinder] *)

Definition YAMLTestFinder_probe (self : YAMLTestFinder) (testsuite : TestsuiteCore TestDriver)
    (dirpath : string) (dirnames filenames : list string)
    : M (TestFinderResult TestDriver) :=
  (* There is a testcase iff there is a "test.yaml" file *)
  if negb (bool_decide ("test.yaml" ∈ filenames)) then mret ResNone
  else
    test_name ← call_test_name testsuite dirpath;
    let yaml_file := os_path_join dirpath "test.yaml" in
    (* Load the YAML file to build the test environment *)
    test_env ← try_except
      (config ← call_Env_to_dict; call_load_with_config yaml_file config)
      (fun e => match e with
                | YamlError _ => Some (raise (ProbingError "invalid syntax for test.yaml"))
                | _ => None
                end);
    (* Ensure that the test_env act like a dictionary *)
    test_env ← match test_env with
               | PyNone => mret (PyDict ∅)
               | _ => if negb (is_Mapping test_env)
                      then raise (ProbingError "invalid format for test.yaml")
                      else mret test_env
               end;
    (* test_env.get("driver"); test_env is a mapping from here on *)
    let driver_name := match test_env with
                       | PyDict d => dict_get d "driver"
                       | _ => PyNone
                       end in
    driver_cls ← match driver_name with
                 | PyNone => mret None
                 | _ => try_except
                          (cls ← call_driver_lookup testsuite driver_name; mret (Some cls))
                          (fun e => match e with
                                    | KeyError _ => Some (raise (ProbingError "cannot find driver"))
                                    | _ => None
                                    end)
                 end;
    mret (ResTest (ParsedTest_init test_name driver_cls test_env dirpath None)).

#[global] Instance YAMLTestFinder_finder : TestFinder TestDriver YAMLTestFinder := {|
  test_dedicated_directory := TestFinder_test_dedicated_directory;
  probe := YAMLTestFinder_probe;
|}.

(** ** [AdaCoreLegacyTestFinder] *)

(** [AdaCoreLegacyTestFinder.__init__] *)
Definition AdaCoreLegacyTestFinder_init (driver_cls : TestDriver)
    : AdaCoreLegacyTestFinder TestDriver :=
  {| finder_driver_cls := driver_cls |}.

Definition AdaCoreLegacyTestFinder_probe (self : AdaCoreLegacyTestFinder TestDriver)
    (testsuite : TestsuiteCore TestDriver) (dirpath : string)
    (dirnames filenames : list string) : M (TestFinderResult TestDriver) :=
  (* There is a testcase iff the test directory name is a valid TN *)
  let dirname := os_path_basename dirpath in
  if negb (re_match TN_RE dirname) then mret ResNone
  else
    mret (ResTest (ParsedTest_init dirname (Some (finder_driver_cls self)) (PyDict ∅)
                     dirpath None)).

#[global] Instance AdaCoreLegacyTestFinder_finder
    : TestFinder TestDriver (AdaCoreLegacyTestFinder TestDriver) := {|
  test_dedicated_directory := TestFinder_test_dedicated_directory;
  probe := AdaCoreLegacyTestFinder_probe;
|}.

End Finders.

(** The calls [YAMLTestFinder.probe] makes up to and including the load of
    [test.yaml]. *)
Definition calls_to_load (svc : Services) (dirpath : string) : list call :=
  [CallTestName dirpath; CallEnvToDict;
   CallLoadWithConfig (os_path_join dirpath "test.yaml") (Env_to_dict svc)].

(** What the load of [dirpath]/test.yaml with the snapshot of the
    environment gives. *)
Definition loaded (svc : Services) (dirpath : string) : result pyval :=
  load_with_config svc (os_path_join dirpath "test.yaml") (Env_to_dict svc).

(** ** A sample testsuite

    A registry with two drivers, and a loader that knows six files: an
    empty one, one that is not YAML, one with a sequence at the root, and
    three mappings, whose [driver] is registered, unknown and null. *)

Definition sample_testsuite : TestsuiteCore string :=
  {| testsuite_test_name := fun dirpath => os_path_basename dirpath;
     test_driver_map := {[ "default" := "DefaultDriver"; "diff" := "DiffDriver" ]} |}.

Definition sample_known_env : gmap pykey pyval :=
  {[ KStr "driver" := PyStr "diff"; KStr "timeout" := PyInt 10 ]}.

Definition sample_unknown_env : gmap pykey pyval :=
  {[ KStr "driver" := PyStr "nope" ]}.

Definition sample_null_env : gmap pykey pyval :=
  {[ KStr "driver" := PyNone; KStr "timeout" := PyInt 10 ]}.

Definition sample_loader (filename : string) (config : pyval) : result pyval :=
  if String.eqb filename "tests/empty/test.yaml" then Returned PyNone
  else if String.eqb filename "tests/broken/test.yaml" then
    Raised (YamlError "mapping values are not allowed here")
  else if String.eqb filename "tests/seq/test.yaml" then
    Returned (PyList [PyStr "a"; PyStr "b"])
  else if String.eqb filename "tests/known/test.yaml" then
    Returned (PyDict sample_known_env)
  else if String.eqb filename "tests/unknown/test.yaml" then
    Returned (PyDict sample_unknown_env)
  else if String.eqb filename "tests/null/test.yaml" then
    Returned (PyDict sample_null_env)
  else Raised (OtherError "FileNotFoundError").

Definition sample_services : Services :=
  {| Env_to_dict := PyDict {[ KStr "os" := PyStr "linux" ]};
     load_with_config := sample_loader |}.

(** ** Vocabulary of the further properties *)

(** ['/' in p] *)
Fixpoint has_sep (p : string) : bool :=
  match p with
  | EmptyString => false
  | String c rest => Ascii.eqb c sep || has_sep rest
  end.

(** A value that [hash] refuses: the lists and the dicts. *)
Definition unhashable (v : pyval) : bool :=
  match v with
  | PyList _ | PyDict _ => true
  | _ => false
  end.

(** The three diagnostics of [YAMLTestFinder.probe]. *)
Definition probing_messages : list string :=
  ["invalid syntax for test.yaml"; "invalid format for test.yaml"; "cannot find driver"].

(** More sample files: a [driver] that is a list, one that is an integer,
    and a file that holds the empty mapping. *)
Definition sample_list_env : gmap pykey pyval :=
  {[ KStr "driver" := PyList [PyStr "diff"] ]}.

Definition sample_int_env : gmap pykey pyval :=
  {[ KStr "driver" := PyInt 3 ]}.

Definition sample_loader_edge (filename : string) (config : pyval) : result pyval :=
  if String.eqb filename "tests/list/test.yaml" then Returned (PyDict sample_list_env)
  else if String.eqb filename "tests/int/test.yaml" then Returned (PyDict sample_int_env)
  else if String.eqb filename "tests/empty/test.yaml" then Returned (PyDict ∅)
  else sample_loader filename config.

Definition sample_services_edge : Services :=
  {| Env_to_dict := Env_to_dict sample_services;
     load_with_config := sample_loader_edge |}.

(** The test found in tests/known. *)
Definition sample_known_test : ParsedTest string :=
  {| test_name := "known";
     driver_cls := Some "DiffDriver";
     test_env := PyDict sample_known_env;
     test_dir := "tests/known";
     test_matcher := None |}.

(** The legacy finder of the samples, and the test it finds in
    tests/AB12-XYZ. *)
Definition sample_legacy_finder : AdaCoreLegacyTestFinder string :=
  AdaCoreLegacyTestFinder_init "LegacyDriver".

Definition sample_legacy_test : ParsedTest string :=
  {| test_name := "AB12-XYZ";
     driver_cls := Some "LegacyDriver";
     test_env := PyDict ∅;
     test_dir := "tests/AB12-XYZ";
     test_matcher := None |}.

(** * Properties *)

Arguments os_path_join : simpl never.

(** Unfolds the monad down to the log-passing functions. *)
Ltac run_M :=
  unfold mbind, mret, M_bind, M_ret, try_except, raise,
    call_test_name, call_Env_to_dict, call_load_with_config,
    call_driver_lookup, external; simpl.

(** Settles a decidable proposition about the sample data by evaluation. *)
Ltac by_evaluation := apply (bool_decide_unpack _); vm_compute; exact I.

(** ** Regular expressions: the matcher against the language *)

Lemma append_empty_inv (s1 s2 : string) :
  s1 +:+ s2 = "" -> s1 = "" /\ s2 = "".
Proof. destruct s1; simpl; [auto | discriminate]. Qed.

Lemma nullable_matches (r : regex) : nullable r = true -> matches r "".
Proof.
  induction r as [| | rs | r1 IH1 r2 IH2 | r1 IH1 r2 IH2]; simpl; intros H;
    try discriminate.
  - constructor.
  - apply andb_prop in H as [H1 H2].
    change "" with ("" +:+ ""). constructor; auto.
  - apply orb_prop in H as [H | H];
      [apply matches_alt_l | apply matches_alt_r]; auto.
Qed.

Lemma matches_nullable (r : regex) (s : string) :
  matches r s -> s = "" -> nullable r = true.
Proof.
  induction 1 as [| rs c Hc | r1 r2 s1 s2 _ IH1 _ IH2 | r1 r2 s _ IH | r1 r2 s _ IH];
    intros Hs; simpl.
  - reflexivity.
  - discriminate.
  - apply append_empty_inv in Hs as [-> ->]. rewrite IH1, IH2; auto.
  - rewrite IH; auto.
  - rewrite IH; auto. apply orb_true_r.
Qed.

Lemma deriv_sound (c : ascii) (r : regex) :
  forall s, matches (deriv c r) s -> matches r (String c s).
Proof.
  induction r as [| | rs | r1 IH1 r2 IH2 | r1 IH1 r2 IH2]; simpl; intros s H.
  - inversion H.
  - inversion H.
  - destruct (in_class c rs) eqn:Hc; inversion H; subst. by constructor.
  - assert (Hseq : forall t, matches (Seq (deriv c r1) r2) t ->
                             matches (Seq r1 r2) (String c t)).
    { intros t Ht. inversion Ht; subst.
      change (String c (s1 +:+ s2)) with (String c s1 +:+ s2).
      constructor; auto. }
    destruct (nullable r1) eqn:Hn; [| by apply Hseq].
    inversion H; subst; [by apply Hseq |].
    change (String c s) with ("" +:+ String c s).
    constructor; [by apply nullable_matches | auto].
  - inversion H; subst; [apply matches_alt_l | apply matches_alt_r]; auto.
Qed.

Lemma deriv_complete (c : ascii) (r : regex) (s' : string) :
  matches r s' -> forall s, s' = String c s -> matches (deriv c r) s.
Proof.
  induction 1 as [| rs c' Hc | r1 r2 s1 s2 H1 IH1 H2 IH2 | r1 r2 s0 _ IH | r1 r2 s0 _ IH];
    intros s Hs; simpl.
  - discriminate.
  - injection Hs as -> <-. rewrite Hc. constructor.
  - destruct s1 as [| c1 s1']; simpl in Hs.
    + rewrite (matches_nullable _ _ H1 eq_refl).
      apply matches_alt_r. by apply IH2.
    + injection Hs as -> <-.
      assert (matches (Seq (deriv c r1) r2) (s1' +:+ s2))
        by (constructor; [by apply IH1 | done]).
      destruct (nullable r1); [by apply matches_alt_l | done].
  - apply matches_alt_l. by apply IH.
  - apply matches_alt_r. by apply IH.
Qed.

(** [re_match] succeeds exactly when a prefix of the subject is in the
    language of the pattern. *)
Lemma re_match_spec (s : string) :
  forall r, re_match r s = true <-> matches_prefix r s.
Proof.
  induction s as [| c s IH]; intros r; simpl; split.
  - rewrite orb_false_r. intros H. exists "", "". split; [done |].
    by apply nullable_matches.
  - intros (p & rest & Hs & Hp). rewrite orb_false_r.
    symmetry in Hs. apply append_empty_inv in Hs as [-> _].
    by apply (matches_nullable _ _ Hp).
  - intros H. apply orb_prop in H as [H | H].
    + exists "", (String c s). split; [done |]. by apply nullable_matches.
    + apply IH in H as (p & rest & -> & Hp).
      exists (String c p), rest. split; [done |]. by apply deriv_sound.
  - intros (p & rest & Hs & Hp). destruct p as [| c' p'].
    + by rewrite (matches_nullable _ _ Hp eq_refl).
    + simpl in Hs. injection Hs as -> ->.
      apply orb_true_intro. right. apply IH.
      exists p', rest. split; [done |]. by apply (deriv_complete _ _ _ Hp).
Qed.

Lemma re_match_false_spec (r : regex) (s : string) :
  re_match r s = false <-> ~ matches_prefix r s.
Proof.
  rewrite <- re_match_spec. destruct (re_match r s); split; done.
Qed.

(** [TN_RE] against the convention in words. *)

Lemma in_class_0_9A_Z c : in_class c [("0", "9"); ("A", "Z")]%char = is_upper_or_digit c.
Proof. unfold in_class, is_upper_or_digit. simpl. by rewrite orb_false_r. Qed.

Lemma in_class_A_Z0_9 c : in_class c [("A", "Z"); ("0", "9")]%char = is_upper_or_digit c.
Proof. unfold in_class, is_upper_or_digit. simpl. rewrite orb_false_r. apply orb_comm. Qed.

Lemma in_class_0_9 c : in_class c [("0", "9")]%char = is_digit c.
Proof. unfold in_class, is_digit. simpl. by rewrite orb_false_r. Qed.

Lemma in_class_hyphen c : in_class c [("-", "-")]%char = Ascii.eqb c "-".
Proof.
  unfold in_class, in_range. simpl. rewrite orb_false_r.
  destruct (Ascii.eqb_spec c "-") as [-> | Hne]; [reflexivity |].
  apply andb_false_iff. rewrite !N.leb_gt.
  assert (N_of_ascii c <> 45%N).
  { intros H. apply Hne. rewrite <- (ascii_N_embedding c), H. reflexivity. }
  lia.
Qed.

Lemma matches_class_seq (c : ascii) (rs : list (ascii * ascii)) (r : regex) (t : string) :
  in_class c rs = true -> matches r t -> matches (Seq (Class rs) r) (String c t).
Proof.
  intros Hc Ht. change (String c t) with (String c "" +:+ t).
  constructor; [by constructor | done].
Qed.

Ltac invert_matches :=
  repeat match goal with
         | H : matches (Seq _ _) _ |- _ => inversion H; subst; clear H
         | H : matches (Repeat _ _) _ |- _ => simpl in H
         | H : matches (Class _) _ |- _ => inversion H; subst; clear H
         | H : matches Eps _ |- _ => inversion H; subst; clear H
         end.

Lemma TN_RE_prefix (s : string) :
  matches_prefix TN_RE s <-> ticket_number_prefix s = true.
Proof.
  unfold TN_RE, cls_0_9A_Z, cls_0_9, lit_hyphen, cls_A_Z0_9. split.
  - intros (p & rest & -> & Hp). simpl in Hp. invert_matches. simpl.
    repeat match goal with
           | H : in_class _ _ = true |- _ =>
               first [ rewrite in_class_0_9A_Z in H | rewrite in_class_A_Z0_9 in H
                     | rewrite in_class_0_9 in H | rewrite in_class_hyphen in H ];
               rewrite H; clear H
           end.
    reflexivity.
  - do 8 (destruct s as [| ? s]; [discriminate |]). simpl.
    rewrite !andb_true_iff.
    intros [[[[[[[H1 H2] H3] H4] H5] H6] H7] H8].
    rewrite <- ?in_class_0_9A_Z in H1, H2.
    rewrite <- in_class_0_9 in H3, H4. rewrite <- in_class_hyphen in H5.
    rewrite <- in_class_A_Z0_9 in H6, H7, H8.
    eexists (String _ (String _ (String _ (String _ (String _
              (String _ (String _ (String _ "")))))))), s.
    split; [reflexivity |].
    apply (matches_seq _ _ (String _ (String _ "")) _);
      [by repeat (apply matches_class_seq; [assumption |]); constructor |].
    apply (matches_seq _ _ (String _ (String _ "")) _);
      [by repeat (apply matches_class_seq; [assumption |]); constructor |].
    repeat (apply matches_class_seq; [assumption |]). constructor.
Qed.

(** ** The interface

    [probe] on a finder is the [probe] of its class; neither finder
    overrides [test_dedicated_directory]. *)

Lemma probe_YAMLTestFinder {TestDriver : Type} (self : YAMLTestFinder) :
  probe (TestDriver := TestDriver) self = YAMLTestFinder_probe self.
Proof. reflexivity. Qed.

Lemma probe_AdaCoreLegacyTestFinder {TestDriver : Type}
    (self : AdaCoreLegacyTestFinder TestDriver) :
  probe self = AdaCoreLegacyTestFinder_probe self.
Proof. reflexivity. Qed.

Lemma test_dedicated_directory_default {TestDriver : Type}
    (y : YAMLTestFinder) (l : AdaCoreLegacyTestFinder TestDriver) :
  test_dedicated_directory (TestDriver := TestDriver) y = true /\
  test_dedicated_directory l = true.
Proof. split; reflexivity. Qed.

(** ** [YAMLTestFinder.probe] *)

Section YAMLTestFinder_properties.

Context {TestDriver : Type}.
Implicit Types (self : YAMLTestFinder) (testsuite : TestsuiteCore TestDriver).
Implicit Types (dirpath : string) (dirnames filenames : list string).
Implicit Types (svc : Services) (log : list call).

(** Once [test.yaml] is there, the outcome of the probe by the outcome of
    the load. *)
Lemma YAMLTestFinder_probe_load self testsuite dirpath dirnames filenames svc log :
  "test.yaml" ∈ filenames ->
  YAMLTestFinder_probe self testsuite dirpath dirnames filenames svc log =
  match loaded svc dirpath with
  | Raised (YamlError _) =>
      (Raised (ProbingError "invalid syntax for test.yaml"),
       log ++ calls_to_load svc dirpath)
  | Raised e => (Raised e, log ++ calls_to_load svc dirpath)
  | Returned v =>
      let name := testsuite_test_name testsuite dirpath in
      let env := match v with PyNone => PyDict ∅ | _ => v end in
      match env with
      | PyDict d =>
          match dict_get d "driver" with
          | PyNone =>
              (Returned (ResTest (mkParsedTest name None env dirpath None)),
               log ++ calls_to_load svc dirpath)
          | key =>
              (match registry_getitem (test_driver_map testsuite) key with
               | Returned cls =>
                   Returned (ResTest (mkParsedTest name (Some cls) env dirpath None))
               | Raised (KeyError _) => Raised (ProbingError "cannot find driver")
               | Raised e => Raised e
               end,
               log ++ calls_to_load svc dirpath ++ [CallDriverLookup key])
          end
      | _ => (Raised (ProbingError "invalid format for test.yaml"),
              log ++ calls_to_load svc dirpath)
      end
  end.
Proof.
  intros Hin. unfold YAMLTestFinder_probe, calls_to_load, loaded.
  rewrite (bool_decide_eq_true_2 _ Hin). run_M.
  rewrite <- !(assoc_L (++)). simpl.
  destruct (load_with_config _ _ _) as [v | e]; [| by destruct e].
  destruct v as [| b | z | s | l | d]; try done; simpl.
  destruct (dict_get d "driver") as [| b | z | s | l | d'] eqn:Hd; try done; simpl;
    rewrite <- ?(assoc_L (++)); simpl; try done.
  destruct (test_driver_map testsuite !! s); done.
Qed.

(** C1: when "test.yaml" is not an element of [filenames],
    [YAMLTestFinder.probe] returns [None], whatever [dirpath], [dirnames]
    and the other file names are, and it makes no external call: the log
    comes back as it went in, so there was no YAML load and no driver
    lookup. *)
Theorem YAMLTestFinder_probe_declines self testsuite dirpath dirnames filenames svc log :
  "test.yaml" ∉ filenames ->
  YAMLTestFinder_probe self testsuite dirpath dirnames filenames svc log = (Returned ResNone, log).
Proof.
  intros Hnotin. unfold YAMLTestFinder_probe.
  by rewrite (bool_decide_eq_false_2 _ Hnotin).
Qed.

(** C2: when "test.yaml" is in [filenames] and the loader raises its
    [YamlError], [YAMLTestFinder.probe] raises [ProbingError] with the
    message "invalid syntax for test.yaml"; what reaches the caller is not
    a [YamlError]. *)
Theorem YAMLTestFinder_probe_invalid_syntax
    self testsuite dirpath dirnames filenames svc log msg :
  "test.yaml" ∈ filenames ->
  loaded svc dirpath = Raised (YamlError msg) ->
  let out := YAMLTestFinder_probe self testsuite dirpath dirnames filenames svc log in
  out.1 = Raised (ProbingError "invalid syntax for test.yaml") /\
  (forall msg', out.1 <> Raised (YamlError msg')) /\
  out.2 = log ++ calls_to_load svc dirpath.
Proof.
  intros Hin Hload. cbv zeta.
  rewrite (YAMLTestFinder_probe_load _ _ _ _ _ _ _ Hin), Hload. simpl.
  repeat split; done.
Qed.

(** C3: when "test.yaml" is in [filenames] and the loaded value is neither
    [None] nor a mapping (a scalar or a sequence at the root),
    [YAMLTestFinder.probe] raises [ProbingError] with the message
    "invalid format for test.yaml". *)
Theorem YAMLTestFinder_probe_invalid_format
    self testsuite dirpath dirnames filenames svc log v :
  "test.yaml" ∈ filenames ->
  loaded svc dirpath = Returned v ->
  v <> PyNone ->
  is_Mapping v = false ->
  YAMLTestFinder_probe self testsuite dirpath dirnames filenames svc log =
  (Raised (ProbingError "invalid format for test.yaml"), log ++ calls_to_load svc dirpath).
Proof.
  intros Hin Hload Hnone Hmap.
  rewrite (YAMLTestFinder_probe_load _ _ _ _ _ _ _ Hin), Hload.
  by destruct v.
Qed.

(** C4: when the loaded mapping has a [driver] key whose value is a name
    that is not in [testsuite.test_driver_map], [YAMLTestFinder.probe]
    raises [ProbingError] with the message "cannot find driver"; the
    [KeyError] of the registry does not reach the caller. *)
Theorem YAMLTestFinder_probe_cannot_find_driver
    self testsuite dirpath dirnames filenames svc log d name :
  "test.yaml" ∈ filenames ->
  loaded svc dirpath = Returned (PyDict d) ->
  d !! KStr "driver" = Some (PyStr name) ->
  test_driver_map testsuite !! name = None ->
  let out := YAMLTestFinder_probe self testsuite dirpath dirnames filenames svc log in
  out.1 = Raised (ProbingError "cannot find driver") /\
  (forall key, out.1 <> Raised (KeyError key)) /\
  out.2 = log ++ calls_to_load svc dirpath ++ [CallDriverLookup (PyStr name)].
Proof.
  intros Hin Hload Hdriver Hreg. cbv zeta.
  rewrite (YAMLTestFinder_probe_load _ _ _ _ _ _ _ Hin), Hload. simpl.
  unfold dict_get. rewrite Hdriver. simpl. rewrite Hreg.
  repeat split; done.
Qed.

(** C5: when "test.yaml" is in [filenames] and loading it gives [None] (an
    empty or comment-only file), [YAMLTestFinder.probe] returns a single
    [ParsedTest] whose [test_env] is the empty mapping and whose
    [driver_cls] is [None]. *)
Theorem YAMLTestFinder_probe_empty_file
    self testsuite dirpath dirnames filenames svc log :
  "test.yaml" ∈ filenames ->
  loaded svc dirpath = Returned PyNone ->
  exists t,
    YAMLTestFinder_probe self testsuite dirpath dirnames filenames svc log =
      (Returned (ResTest t), log ++ calls_to_load svc dirpath) /\
    test_env t = PyDict ∅ /\
    driver_cls t = None /\
    test_name t = testsuite_test_name testsuite dirpath /\
    test_dir t = dirpath /\
    test_matcher t = None.
Proof.
  intros Hin Hload.
  rewrite (YAMLTestFinder_probe_load _ _ _ _ _ _ _ Hin), Hload. simpl.
  eexists. split; [reflexivity |]. repeat split.
Qed.

(** C6: when the loaded mapping has a [driver] key whose value is a name
    registered in [testsuite.test_driver_map], [YAMLTestFinder.probe]
    returns a single [ParsedTest]: [driver_cls] is the class registered
    under that name, [test_env] is the loaded mapping itself, with every
    key, [test_name] is [testsuite.test_name(dirpath)], [test_dir] is
    [dirpath] and [test_matcher] is [None]. *)
Theorem YAMLTestFinder_probe_known_driver
    self testsuite dirpath dirnames filenames svc log d name cls :
  "test.yaml" ∈ filenames ->
  loaded svc dirpath = Returned (PyDict d) ->
  d !! KStr "driver" = Some (PyStr name) ->
  test_driver_map testsuite !! name = Some cls ->
  YAMLTestFinder_probe self testsuite dirpath dirnames filenames svc log =
  (Returned (ResTest {| test_name := testsuite_test_name testsuite dirpath;
                        driver_cls := Some cls;
                        test_env := PyDict d;
                        test_dir := dirpath;
                        test_matcher := None |}),
   log ++ calls_to_load svc dirpath ++ [CallDriverLookup (PyStr name)]).
Proof.
  intros Hin Hload Hdriver Hreg.
  rewrite (YAMLTestFinder_probe_load _ _ _ _ _ _ _ Hin), Hload. simpl.
  unfold dict_get. rewrite Hdriver. simpl. by rewrite Hreg.
Qed.

(** A [driver] key that is absent: no lookup, [driver_cls] is [None]. *)
Lemma YAMLTestFinder_probe_no_driver_key
    self testsuite dirpath dirnames filenames svc log d :
  "test.yaml" ∈ filenames ->
  loaded svc dirpath = Returned (PyDict d) ->
  d !! KStr "driver" = None ->
  YAMLTestFinder_probe self testsuite dirpath dirnames filenames svc log =
  (Returned (ResTest {| test_name := testsuite_test_name testsuite dirpath;
                        driver_cls := None;
                        test_env := PyDict d;
                        test_dir := dirpath;
                        test_matcher := None |}),
   log ++ calls_to_load svc dirpath).
Proof.
  intros Hin Hload Hdriver.
  rewrite (YAMLTestFinder_probe_load _ _ _ _ _ _ _ Hin), Hload. simpl.
  unfold dict_get. by rewrite Hdriver.
Qed.

(** C10: when the loaded mapping has a [driver] key mapped to [None],
    [YAMLTestFinder.probe] returns a [ParsedTest] with [driver_cls] [None]
    (so no [ProbingError]), and the calls it makes are the ones up to the
    load, none of which is a lookup in [testsuite.test_driver_map].  That
    is what it does when the key is absent: the result and the calls are
    the same, up to the mapping that was loaded. *)
Theorem YAMLTestFinder_probe_null_driver
    self testsuite dirpath dirnames filenames svc log d :
  "test.yaml" ∈ filenames ->
  loaded svc dirpath = Returned (PyDict d) ->
  d !! KStr "driver" = Some PyNone ->
  YAMLTestFinder_probe self testsuite dirpath dirnames filenames svc log =
    (Returned (ResTest {| test_name := testsuite_test_name testsuite dirpath;
                          driver_cls := None;
                          test_env := PyDict d;
                          test_dir := dirpath;
                          test_matcher := None |}),
     log ++ calls_to_load svc dirpath) /\
  (forall key, CallDriverLookup key ∉ calls_to_load svc dirpath) /\
  (forall svc' d',
     loaded svc' dirpath = Returned (PyDict d') ->
     d' !! KStr "driver" = None ->
     YAMLTestFinder_probe self testsuite dirpath dirnames filenames svc' log =
       (Returned (ResTest {| test_name := testsuite_test_name testsuite dirpath;
                             driver_cls := None;
                             test_env := PyDict d';
                             test_dir := dirpath;
                             test_matcher := None |}),
        log ++ calls_to_load svc' dirpath)).
Proof.
  intros Hin Hload Hdriver. split; [| split].
  - rewrite (YAMLTestFinder_probe_load _ _ _ _ _ _ _ Hin), Hload. simpl.
    unfold dict_get. by rewrite Hdriver.
  - intros key. unfold calls_to_load. rewrite !not_elem_of_cons.
    repeat split; try done. apply not_elem_of_nil.
  - intros svc' d' Hload' Habsent.
    by apply YAMLTestFinder_probe_no_driver_key.
Qed.

End YAMLTestFinder_properties.

(** ** [AdaCoreLegacyTestFinder.probe] *)

Section AdaCoreLegacyTestFinder_properties.

Context {TestDriver : Type}.
Implicit Types (self : AdaCoreLegacyTestFinder TestDriver).
Implicit Types (testsuite : TestsuiteCore TestDriver).
Implicit Types (dirpath : string) (dirnames filenames : list string).
Implicit Types (svc : Services) (log : list call).

(** The probe by the outcome of the match. *)
Lemma AdaCoreLegacyTestFinder_probe_eq self testsuite dirpath dirnames filenames svc log :
  AdaCoreLegacyTestFinder_probe self testsuite dirpath dirnames filenames svc log =
  (Returned
     (if re_match TN_RE (os_path_basename dirpath)
      then ResTest {| test_name := os_path_basename dirpath;
                      driver_cls := Some (finder_driver_cls self);
                      test_env := PyDict ∅;
                      test_dir := dirpath;
                      test_matcher := None |}
      else ResNone),
   log).
Proof.
  unfold AdaCoreLegacyTestFinder_probe; simpl.
  by destruct (re_match TN_RE (os_path_basename dirpath)).
Qed.

(** C7: [AdaCoreLegacyTestFinder.probe] either finds that a prefix of the
    base name of [dirpath] is in the language of
    [[0-9A-Z]{2}[0-9]{2}-[A-Z0-9]{3}], and returns a single [ParsedTest]
    with the whole base name as [test_name], the driver class of the finder,
    an empty [test_env] and [dirpath] as [test_dir]; or finds that none is,
    and returns [None].  The base names "AB12-XYZ" and "AB12-XYZ-extra" are
    of the first kind, "ab12-xyz" and "AB1-XYZ" of the second. *)
Theorem AdaCoreLegacyTestFinder_probe_spec
    self testsuite dirpath dirnames filenames svc log :
  (let dirname := os_path_basename dirpath in
   (matches_prefix TN_RE dirname /\
    AdaCoreLegacyTestFinder_probe self testsuite dirpath dirnames filenames svc log =
      (Returned (ResTest {| test_name := dirname;
                            driver_cls := Some (finder_driver_cls self);
                            test_env := PyDict ∅;
                            test_dir := dirpath;
                            test_matcher := None |}),
       log)) \/
   (~ matches_prefix TN_RE dirname /\
    AdaCoreLegacyTestFinder_probe self testsuite dirpath dirnames filenames svc log = (Returned ResNone, log))) /\
  matches_prefix TN_RE "AB12-XYZ" /\
  matches_prefix TN_RE "AB12-XYZ-extra" /\
  ~ matches_prefix TN_RE "ab12-xyz" /\
  ~ matches_prefix TN_RE "AB1-XYZ".
Proof.
  split.
  - cbv zeta. rewrite AdaCoreLegacyTestFinder_probe_eq.
    destruct (re_match TN_RE (os_path_basename dirpath)) eqn:Hm.
    + left. split; [by apply re_match_spec | done].
    + right. split; [by apply re_match_false_spec | done].
  - repeat split;
      first [ by apply re_match_spec; vm_compute
            | by apply re_match_false_spec; vm_compute ].
Qed.

(** C8: [AdaCoreLegacyTestFinder.probe] returns [None] or a single
    [ParsedTest] on every input; it raises no exception, so no
    [ProbingError], and makes no external call. *)
Theorem AdaCoreLegacyTestFinder_probe_never_raises
    self testsuite dirpath dirnames filenames svc log :
  let out := AdaCoreLegacyTestFinder_probe self testsuite dirpath dirnames filenames svc log in
  (out = (Returned ResNone, log) \/ exists t, out = (Returned (ResTest t), log)) /\
  (forall msg, out.1 <> Raised (ProbingError msg)) /\
  (forall e, out.1 <> Raised e).
Proof.
  cbv zeta. rewrite AdaCoreLegacyTestFinder_probe_eq.
  repeat split; try done.
  destruct (re_match TN_RE (os_path_basename dirpath)); eauto.
Qed.

End AdaCoreLegacyTestFinder_properties.

(** ** [ParsedTest] *)

(** C9: reading back the five fields of
    [ParsedTest(test_name, driver_cls, test_env, test_dir, test_matcher)]
    gives the five values it was built from, unchanged. *)
Theorem ParsedTest_init_roundtrip {TestDriver : Type}
    (name : string) (cls : option TestDriver) (env : pyval) (dir : string)
    (matcher : option string) :
  let t := ParsedTest_init name cls env dir matcher in
  test_name t = name /\
  driver_cls t = cls /\
  test_env t = env /\
  test_dir t = dir /\
  test_matcher t = matcher.
Proof. repeat split. Qed.

(** ** The sample testsuite *)

Example basename_nested : os_path_basename "tests/AB12-XYZ" = "AB12-XYZ".
Proof. reflexivity. Qed.

Example basename_trailing_sep : os_path_basename "tests/AB12-XYZ/" = "".
Proof. reflexivity. Qed.

Example join_plain : os_path_join "tests/empty" "test.yaml" = "tests/empty/test.yaml".
Proof. reflexivity. Qed.

Example join_trailing_sep : os_path_join "tests/empty/" "test.yaml" = "tests/empty/test.yaml".
Proof. reflexivity. Qed.

Example join_empty : os_path_join "" "test.yaml" = "test.yaml".
Proof. reflexivity. Qed.

Example legacy_probe_match :
  AdaCoreLegacyTestFinder_probe (AdaCoreLegacyTestFinder_init "LegacyDriver") sample_testsuite
        "tests/AB12-XYZ-extra" [] ["test.cmd"] sample_services [] =
  (Returned (ResTest (mkParsedTest "AB12-XYZ-extra" (Some "LegacyDriver") (PyDict ∅)
                        "tests/AB12-XYZ-extra" None)), []).
Proof. reflexivity. Qed.

Example legacy_probe_wrong_case :
  AdaCoreLegacyTestFinder_probe (AdaCoreLegacyTestFinder_init "LegacyDriver") sample_testsuite
        "tests/ab12-xyz" [] ["test.cmd"] sample_services [] =
  (Returned ResNone, []).
Proof. reflexivity. Qed.

(** A [driver] value that cannot be hashed: the [TypeError] of the registry
    is not a [KeyError], and goes on to the caller. *)
Example yaml_probe_unhashable_driver :
  (YAMLTestFinder_probe mkYAMLTestFinder sample_testsuite "tests/list" [] ["test.yaml"]
     {| Env_to_dict := PyDict ∅;
        load_with_config := fun _ _ =>
          Returned (PyDict {[ KStr "driver" := PyList [PyStr "diff"] ]}) |} []).1 =
  Raised (TypeError "unhashable type: 'list'").
Proof. reflexivity. Qed.

Lemma YAMLTestFinder_probe_declines_sample :
  ("test.yaml" ∉ ["test.cmd"; "test.out"]) /\
  YAMLTestFinder_probe mkYAMLTestFinder sample_testsuite "tests/AB12-XYZ" ["src"]
        ["test.cmd"; "test.out"] sample_services [] =
  (Returned ResNone, []).
Proof.
  assert (Hnotin : "test.yaml" ∉ ["test.cmd"; "test.out"]) by by_evaluation.
  split; [exact Hnotin |].
  exact (YAMLTestFinder_probe_declines mkYAMLTestFinder sample_testsuite
           "tests/AB12-XYZ" ["src"] ["test.cmd"; "test.out"] sample_services [] Hnotin).
Defined.

Lemma YAMLTestFinder_probe_invalid_syntax_sample :
  "test.yaml" ∈ ["test.yaml"; "test.out"] /\
  loaded sample_services "tests/broken" =
    Raised (YamlError "mapping values are not allowed here") /\
  (YAMLTestFinder_probe mkYAMLTestFinder sample_testsuite "tests/broken" []
         ["test.yaml"; "test.out"] sample_services []).1 =
  Raised (ProbingError "invalid syntax for test.yaml").
Proof.
  assert (Hin : "test.yaml" ∈ ["test.yaml"; "test.out"]) by by_evaluation.
  assert (Hload : loaded sample_services "tests/broken" =
                  Raised (YamlError "mapping values are not allowed here"))
    by reflexivity.
  split; [exact Hin |]. split; [exact Hload |].
  exact (proj1 (YAMLTestFinder_probe_invalid_syntax mkYAMLTestFinder sample_testsuite
                  "tests/broken" [] ["test.yaml"; "test.out"] sample_services [] _
                  Hin Hload)).
Defined.

Lemma YAMLTestFinder_probe_invalid_format_sample :
  "test.yaml" ∈ ["test.yaml"] /\
  loaded sample_services "tests/seq" = Returned (PyList [PyStr "a"; PyStr "b"]) /\
  PyList [PyStr "a"; PyStr "b"] <> PyNone /\
  is_Mapping (PyList [PyStr "a"; PyStr "b"]) = false /\
  YAMLTestFinder_probe mkYAMLTestFinder sample_testsuite "tests/seq" [] ["test.yaml"] sample_services [] =
  (Raised (ProbingError "invalid format for test.yaml"),
   [] ++ calls_to_load sample_services "tests/seq").
Proof.
  assert (Hin : "test.yaml" ∈ ["test.yaml"]) by by_evaluation.
  assert (Hload : loaded sample_services "tests/seq" =
                  Returned (PyList [PyStr "a"; PyStr "b"])) by reflexivity.
  assert (Hnone : PyList [PyStr "a"; PyStr "b"] <> PyNone) by discriminate.
  assert (Hmap : is_Mapping (PyList [PyStr "a"; PyStr "b"]) = false) by reflexivity.
  repeat (split; [assumption |]).
  exact (YAMLTestFinder_probe_invalid_format mkYAMLTestFinder sample_testsuite
           "tests/seq" [] ["test.yaml"] sample_services [] _ Hin Hload Hnone Hmap).
Defined.

Lemma YAMLTestFinder_probe_cannot_find_driver_sample :
  "test.yaml" ∈ ["test.yaml"] /\
  loaded sample_services "tests/unknown" = Returned (PyDict sample_unknown_env) /\
  sample_unknown_env !! KStr "driver" = Some (PyStr "nope") /\
  test_driver_map sample_testsuite !! "nope" = None /\
  (YAMLTestFinder_probe mkYAMLTestFinder sample_testsuite "tests/unknown" [] ["test.yaml"]
         sample_services []).1 =
  Raised (ProbingError "cannot find driver").
Proof.
  assert (Hin : "test.yaml" ∈ ["test.yaml"]) by by_evaluation.
  assert (Hload : loaded sample_services "tests/unknown" =
                  Returned (PyDict sample_unknown_env)) by reflexivity.
  assert (Hdriver : sample_unknown_env !! KStr "driver" = Some (PyStr "nope"))
    by reflexivity.
  assert (Hreg : test_driver_map sample_testsuite !! "nope" = None) by reflexivity.
  repeat (split; [assumption |]).
  exact (proj1 (YAMLTestFinder_probe_cannot_find_driver mkYAMLTestFinder sample_testsuite
                  "tests/unknown" [] ["test.yaml"] sample_services [] _ _
                  Hin Hload Hdriver Hreg)).
Defined.

Lemma YAMLTestFinder_probe_empty_file_sample :
  "test.yaml" ∈ ["test.yaml"] /\
  loaded sample_services "tests/empty" = Returned PyNone /\
  exists t,
    YAMLTestFinder_probe mkYAMLTestFinder sample_testsuite "tests/empty" [] ["test.yaml"]
          sample_services [] =
      (Returned (ResTest t), [] ++ calls_to_load sample_services "tests/empty") /\
    test_env t = PyDict ∅ /\
    driver_cls t = None /\
    test_name t = testsuite_test_name sample_testsuite "tests/empty" /\
    test_dir t = "tests/empty" /\
    test_matcher t = None.
Proof.
  assert (Hin : "test.yaml" ∈ ["test.yaml"]) by by_evaluation.
  assert (Hload : loaded sample_services "tests/empty" = Returned PyNone) by reflexivity.
  repeat (split; [assumption |]).
  exact (YAMLTestFinder_probe_empty_file mkYAMLTestFinder sample_testsuite
           "tests/empty" [] ["test.yaml"] sample_services [] Hin Hload).
Defined.

Lemma YAMLTestFinder_probe_known_driver_sample :
  "test.yaml" ∈ ["test.yaml"; "test.out"] /\
  loaded sample_services "tests/known" = Returned (PyDict sample_known_env) /\
  sample_known_env !! KStr "driver" = Some (PyStr "diff") /\
  test_driver_map sample_testsuite !! "diff" = Some "DiffDriver" /\
  YAMLTestFinder_probe mkYAMLTestFinder sample_testsuite "tests/known" [] ["test.yaml"; "test.out"]
        sample_services [] =
  (Returned (ResTest {| test_name := testsuite_test_name sample_testsuite "tests/known";
                        driver_cls := Some "DiffDriver";
                        test_env := PyDict sample_known_env;
                        test_dir := "tests/known";
                        test_matcher := None |}),
   [] ++ calls_to_load sample_services "tests/known" ++ [CallDriverLookup (PyStr "diff")]).
Proof.
  assert (Hin : "test.yaml" ∈ ["test.yaml"; "test.out"]) by by_evaluation.
  assert (Hload : loaded sample_services "tests/known" = Returned (PyDict sample_known_env))
    by reflexivity.
  assert (Hdriver : sample_known_env !! KStr "driver" = Some (PyStr "diff"))
    by reflexivity.
  assert (Hreg : test_driver_map sample_testsuite !! "diff" = Some "DiffDriver")
    by reflexivity.
  repeat (split; [assumption |]).
  exact (YAMLTestFinder_probe_known_driver mkYAMLTestFinder sample_testsuite
           "tests/known" [] ["test.yaml"; "test.out"] sample_services [] _ "diff"
           "DiffDriver" Hin Hload Hdriver Hreg).
Defined.

Lemma YAMLTestFinder_probe_null_driver_sample :
  "test.yaml" ∈ ["test.yaml"] /\
  loaded sample_services "tests/null" = Returned (PyDict sample_null_env) /\
  sample_null_env !! KStr "driver" = Some PyNone /\
  YAMLTestFinder_probe mkYAMLTestFinder sample_testsuite "tests/null" [] ["test.yaml"] sample_services [] =
  (Returned (ResTest {| test_name := testsuite_test_name sample_testsuite "tests/null";
                        driver_cls := None;
                        test_env := PyDict sample_null_env;
                        test_dir := "tests/null";
                        test_matcher := None |}),
   [] ++ calls_to_load sample_services "tests/null").
Proof.
  assert (Hin : "test.yaml" ∈ ["test.yaml"]) by by_evaluation.
  assert (Hload : loaded sample_services "tests/null" = Returned (PyDict sample_null_env))
    by reflexivity.
  assert (Hdriver : sample_null_env !! KStr "driver" = Some PyNone) by reflexivity.
  repeat (split; [assumption |]).
  exact (proj1 (YAMLTestFinder_probe_null_driver mkYAMLTestFinder sample_testsuite
                  "tests/null" [] ["test.yaml"] sample_services [] _
                  Hin Hload Hdriver)).
Defined.

(** * Further properties *)

(** ** [os.path] *)

Lemma append_nil_l (b : string) : "" +:+ b = b.
Proof. reflexivity. Qed.

Lemma append_cons (x : ascii) (a b : string) : String x a +:+ b = String x (a +:+ b).
Proof. reflexivity. Qed.

Ltac simpl_append := rewrite ?append_cons, ?append_nil_l.

Lemma string_append_assoc (a b c : string) : (a +:+ b) +:+ c = a +:+ (b +:+ c).
Proof. induction a as [| x a IH]; simpl_append; [done | by rewrite IH]. Qed.

Lemma has_sep_append (a b : string) : has_sep (a +:+ b) = has_sep a || has_sep b.
Proof.
  induction a as [| x a IH]; simpl_append; simpl; [done |].
  by rewrite IH, orb_assoc.
Qed.

Lemma endswith_sep_cons (c : ascii) (d : string) :
  d <> "" -> endswith_sep (String c d) = endswith_sep d.
Proof. by destruct d. Qed.

Lemma endswith_sep_append_sep (a : string) : endswith_sep (a +:+ String sep "") = true.
Proof.
  induction a as [| x a IH]; simpl_append; [done |].
  rewrite endswith_sep_cons; [done |]. by destruct a.
Qed.

Lemma rfind_from_no_sep (b : string) (i last : Z) :
  has_sep b = false -> rfind_from sep b i last = last.
Proof.
  revert i last. induction b as [| c b IH]; simpl; intros i last H; [done |].
  apply orb_false_elim in H as [Hc Hb]. rewrite Hc. by apply IH.
Qed.

Lemma rfind_from_append (ch : ascii) (a b : string) (i last : Z) :
  rfind_from ch (a +:+ b) i last =
  rfind_from ch b (i + Z.of_nat (String.length a)) (rfind_from ch a i last).
Proof.
  revert i last. induction a as [| c a IH]; intros i last; simpl_append.
  - simpl. by rewrite Z.add_0_r.
  - simpl. rewrite IH. f_equal. lia.
Qed.

Lemma rfind_from_endswith_sep (d : string) (i last : Z) :
  endswith_sep d = true ->
  rfind_from sep d i last = i + Z.of_nat (String.length d) - 1.
Proof.
  revert i last. induction d as [| c d IH]; intros i last H; [done |].
  destruct d as [| c' d'].
  - simpl in *. rewrite H. lia.
  - change (rfind_from sep (String c (String c' d')) i last)
      with (rfind_from sep (String c' d') (i + 1) (if Ascii.eqb c sep then i else last)).
    rewrite IH by done.
    change (String.length (String c (String c' d')))
      with (S (String.length (String c' d'))).
    lia.
Qed.

Lemma slice_from_append (d b : string) : slice_from (String.length d) (d +:+ b) = b.
Proof. induction d as [| c d IH]; simpl_append; simpl; [by destruct b | done]. Qed.

(** The base name of a path that is a directory part, empty or ending with
    the separator, followed by a name without separator, is that name. *)
Lemma os_path_basename_append (d b : string) :
  d = "" \/ endswith_sep d = true ->
  has_sep b = false ->
  os_path_basename (d +:+ b) = b.
Proof.
  intros Hd Hb. unfold os_path_basename, rfind.
  rewrite rfind_from_append, (rfind_from_no_sep b) by done.
  destruct Hd as [-> | Hd]; [by destruct b |].
  rewrite rfind_from_endswith_sep by done.
  replace (Z.to_nat _) with (String.length d) by lia.
  apply slice_from_append.
Qed.

(** Every path splits into such a directory part and such a name. *)
Lemma path_split (p : string) :
  exists d b, p = d +:+ b /\ (d = "" \/ endswith_sep d = true) /\ has_sep b = false.
Proof.
  induction p as [| c p (d & b & -> & Hd & Hb)].
  - exists "", "". auto.
  - destruct (decide (d = "")) as [-> | Hne].
    + destruct (Ascii.eqb c sep) eqn:Hc.
      * exists (String c ""), b. simpl. rewrite Hc. auto.
      * exists "", (String c b). simpl. rewrite Hc. auto.
    + exists (String c d), b. split; [done |]. split; [| done].
      right. rewrite endswith_sep_cons by done. by destruct Hd.
Qed.

(** X11: [os.path.basename(p)] is the part of [p] after its last
    separator: [p] is a directory part, empty or ending with "/", followed
    by the base name, and the base name holds no "/". *)
Theorem os_path_basename_split (p : string) :
  has_sep (os_path_basename p) = false /\
  exists d, p = d +:+ os_path_basename p /\ (d = "" \/ endswith_sep d = true).
Proof.
  destruct (path_split p) as (d & b & -> & Hd & Hb).
  rewrite (os_path_basename_append d b Hd Hb). eauto.
Qed.

(** X12: [os.path.join] then [os.path.basename] gives back a component
    that holds no separator, whatever the directory: the file that
    [YAMLTestFinder.probe] asks the loader for has the base name
    "test.yaml". *)
Theorem os_path_basename_join (a b : string) :
  has_sep b = false ->
  os_path_basename (os_path_join a b) = b.
Proof.
  intros Hb. unfold os_path_join.
  assert (startswith_sep b = false) as -> by (destruct b; simpl in *; [done |];
    by apply orb_false_elim in Hb as [-> _]).
  destruct (String.eqb_spec a "") as [-> | Hne]; simpl.
  - by apply os_path_basename_append; [left |].
  - destruct (endswith_sep a) eqn:Ha.
    + by apply os_path_basename_append; [right |].
    + change (String sep b) with (String sep "" +:+ b).
      rewrite <- string_append_assoc.
      apply os_path_basename_append; [right | done].
      apply endswith_sep_append_sep.
Qed.

Lemma os_path_basename_join_sample :
  has_sep "test.yaml" = false /\
  os_path_basename (os_path_join "tests/empty" "test.yaml") = "test.yaml".
Proof.
  assert (H : has_sep "test.yaml" = false) by reflexivity.
  split; [exact H |].
  exact (os_path_basename_join "tests/empty" "test.yaml" H).
Defined.

(** ** [YAMLTestFinder.probe], all outcomes *)

Lemma dict_get_empty (key : string) : dict_get ∅ key = PyNone.
Proof. unfold dict_get. by rewrite lookup_empty. Qed.

Lemma dict_get_lookup (d : gmap pykey pyval) (key : string) (v : pyval) :
  dict_get d key = v -> v <> PyNone -> d !! KStr key = Some v.
Proof. unfold dict_get. destruct (d !! KStr key); simpl; congruence. Qed.

Section YAMLTestFinder_outcomes.

Context {TestDriver : Type}.
Implicit Types (self : YAMLTestFinder) (testsuite : TestsuiteCore TestDriver).
Implicit Types (dirpath : string) (dirnames filenames : list string).
Implicit Types (svc : Services) (log : list call).

Lemma YAMLTestFinder_probe_absent self testsuite dirpath dirnames filenames svc log :
  "test.yaml" ∉ filenames ->
  YAMLTestFinder_probe self testsuite dirpath dirnames filenames svc log =
  (Returned ResNone, log).
Proof.
  intros Hnotin. unfold YAMLTestFinder_probe.
  by rewrite (bool_decide_eq_false_2 _ Hnotin).
Qed.

(** Splits on the outcome of the load, on the [driver] entry and on the
    registry, after [YAMLTestFinder_probe_load]. *)
Ltac probe_cases svc dirpath testsuite :=
  let d := fresh "d" in
  let name := fresh "name" in
  destruct (loaded svc dirpath) as [[| ? | ? | ? | ? | d] | []] eqn:Hload;
  cbv zeta; cbn match; rewrite ?dict_get_empty;
  try (destruct (dict_get d "driver") as [| ? | ? | name | ? | ?] eqn:Hget;
       cbn [registry_getitem];
       try destruct (test_driver_map testsuite !! name) eqn:Hreg);
  cbn [fst snd].

(** X1: [YAMLTestFinder.probe] returns [None] exactly when "test.yaml" is
    not in [filenames]: a directory that has the file is never declined,
    whatever the file holds.  And the probe never returns a list of tests. *)
Theorem YAMLTestFinder_probe_none_iff self testsuite dirpath dirnames filenames svc log :
  ((YAMLTestFinder_probe self testsuite dirpath dirnames filenames svc log).1 =
     Returned ResNone <-> "test.yaml" ∉ filenames) /\
  (forall ts, (YAMLTestFinder_probe self testsuite dirpath dirnames filenames svc log).1 <>
              Returned (ResList ts)).
Proof.
  destruct (decide ("test.yaml" ∈ filenames)) as [Hin | Hnotin].
  - rewrite (YAMLTestFinder_probe_load _ _ _ _ _ _ _ Hin).
    probe_cases svc dirpath testsuite; (split; [split |]); done.
  - rewrite (YAMLTestFinder_probe_absent _ _ _ _ _ _ _ Hnotin). simpl.
    split; [split |]; done.
Qed.

(** X2: an exception of the loader that is not a [YamlError] (the file
    cannot be read, say) is not caught: [YAMLTestFinder.probe] raises that
    very exception, after the calls up to the load. *)
Theorem YAMLTestFinder_probe_loader_error
    self testsuite dirpath dirnames filenames svc log e :
  "test.yaml" ∈ filenames ->
  loaded svc dirpath = Raised e ->
  (forall msg, e <> YamlError msg) ->
  YAMLTestFinder_probe self testsuite dirpath dirnames filenames svc log =
  (Raised e, log ++ calls_to_load svc dirpath).
Proof.
  intros Hin Hload Hne.
  rewrite (YAMLTestFinder_probe_load _ _ _ _ _ _ _ Hin), Hload.
  destruct e; try done. by destruct (Hne msg).
Qed.

(** X3: a [driver] value that cannot be hashed (a list or a mapping) makes
    the lookup in the registry raise [TypeError]; the handler takes
    [KeyError] only, so [YAMLTestFinder.probe] raises the [TypeError], not a
    [ProbingError]. *)
Theorem YAMLTestFinder_probe_unhashable_driver
    self testsuite dirpath dirnames filenames svc log d v :
  "test.yaml" ∈ filenames ->
  loaded svc dirpath = Returned (PyDict d) ->
  d !! KStr "driver" = Some v ->
  unhashable v = true ->
  let out := YAMLTestFinder_probe self testsuite dirpath dirnames filenames svc log in
  (exists msg, out.1 = Raised (TypeError msg)) /\
  (forall msg, out.1 <> Raised (ProbingError msg)) /\
  out.2 = log ++ calls_to_load svc dirpath ++ [CallDriverLookup v].
Proof.
  intros Hin Hload Hdriver Hv. cbv zeta.
  rewrite (YAMLTestFinder_probe_load _ _ _ _ _ _ _ Hin), Hload. simpl.
  unfold dict_get. rewrite Hdriver. simpl.
  destruct v; try done; simpl; eauto.
Qed.

(** X4: a [driver] value that is a boolean or an integer is looked up like
    a name; the registry has string keys, so it is not there and
    [YAMLTestFinder.probe] raises [ProbingError] "cannot find driver". *)
Theorem YAMLTestFinder_probe_scalar_driver
    self testsuite dirpath dirnames filenames svc log d v :
  "test.yaml" ∈ filenames ->
  loaded svc dirpath = Returned (PyDict d) ->
  d !! KStr "driver" = Some v ->
  (exists b, v = PyBool b) \/ (exists z, v = PyInt z) ->
  YAMLTestFinder_probe self testsuite dirpath dirnames filenames svc log =
  (Raised (ProbingError "cannot find driver"),
   log ++ calls_to_load svc dirpath ++ [CallDriverLookup v]).
Proof.
  intros Hin Hload Hdriver Hv.
  rewrite (YAMLTestFinder_probe_load _ _ _ _ _ _ _ Hin), Hload. simpl.
  unfold dict_get. rewrite Hdriver. simpl.
  by destruct Hv as [[b ->] | [z ->]].
Qed.

(** X5: a test that [YAMLTestFinder.probe] returns is anchored at the
    probed directory: "test.yaml" was in [filenames], [test_dir] is
    [dirpath], [test_name] is [testsuite.test_name(dirpath)], [test_matcher]
    is [None], and [test_env] is a mapping: the one the loader returned, or
    the empty one when it returned [None]. *)
Theorem YAMLTestFinder_probe_returned_test
    self testsuite dirpath dirnames filenames svc log t :
  (YAMLTestFinder_probe self testsuite dirpath dirnames filenames svc log).1 =
    Returned (ResTest t) ->
  "test.yaml" ∈ filenames /\
  test_dir t = dirpath /\
  test_name t = testsuite_test_name testsuite dirpath /\
  test_matcher t = None /\
  exists d, test_env t = PyDict d /\
            (loaded svc dirpath = Returned (PyDict d) \/
             loaded svc dirpath = Returned PyNone /\ d = ∅).
Proof.
  destruct (decide ("test.yaml" ∈ filenames)) as [Hin | Hnotin].
  - rewrite (YAMLTestFinder_probe_load _ _ _ _ _ _ _ Hin).
    probe_cases svc dirpath testsuite; intros Ht; try done;
      injection Ht as <-; simpl; eauto 10.
  - by rewrite (YAMLTestFinder_probe_absent _ _ _ _ _ _ _ Hnotin).
Qed.

(** X6: the driver class of a test that [YAMLTestFinder.probe] returns
    comes from the registry: when [driver_cls] is a class, [test_env] maps
    [driver] to a name that the registry maps to that class; when it is
    [None], [test_env] has no [driver] or maps it to [None]. *)
Theorem YAMLTestFinder_probe_returned_driver
    self testsuite dirpath dirnames filenames svc log t :
  (YAMLTestFinder_probe self testsuite dirpath dirnames filenames svc log).1 =
    Returned (ResTest t) ->
  exists d, test_env t = PyDict d /\
    match driver_cls t with
    | Some cls => exists name, d !! KStr "driver" = Some (PyStr name) /\
                               test_driver_map testsuite !! name = Some cls
    | None => d !! KStr "driver" = None \/ d !! KStr "driver" = Some PyNone
    end.
Proof.
  destruct (decide ("test.yaml" ∈ filenames)) as [Hin | Hnotin].
  - rewrite (YAMLTestFinder_probe_load _ _ _ _ _ _ _ Hin).
    probe_cases svc dirpath testsuite; intros Ht; try done;
      injection Ht as <-; simpl; eexists; (split; [reflexivity |]).
    + left. apply lookup_empty.
    + unfold dict_get in Hget. destruct (_ !! KStr "driver") as [v |]; simpl in Hget;
        [right; by subst | by left].
    + eexists. split; [| done]. by apply dict_get_lookup.
  - by rewrite (YAMLTestFinder_probe_absent _ _ _ _ _ _ _ Hnotin).
Qed.

(** X7: the external calls of [YAMLTestFinder.probe], in order: none
    when "test.yaml" is not in [filenames]; else [testsuite.test_name], the
    snapshot of the environment and one load; and after these one lookup in
    the registry, made only when the loader returned a mapping whose
    [driver] is not [None], with that value as the key. *)
Theorem YAMLTestFinder_probe_calls self testsuite dirpath dirnames filenames svc log :
  let out := YAMLTestFinder_probe self testsuite dirpath dirnames filenames svc log in
(("test.yaml" ∉ filenames) /\ out.2 = log) \/
  ("test.yaml" ∈ filenames /\
   (out.2 = log ++ calls_to_load svc dirpath \/
    exists d key,
      loaded svc dirpath = Returned (PyDict d) /\
      d !! KStr "driver" = Some key /\
      key <> PyNone /\
      out.2 = log ++ calls_to_load svc dirpath ++ [CallDriverLookup key])).
Proof.
  cbv zeta. destruct (decide ("test.yaml" ∈ filenames)) as [Hin | Hnotin].
  - right. split; [done |].
    rewrite (YAMLTestFinder_probe_load _ _ _ _ _ _ _ Hin).
    probe_cases svc dirpath testsuite; try (by left);
      right; eexists _, _; (split; [reflexivity |]);
      (split; [by apply dict_get_lookup |]); done.
  - left. by rewrite (YAMLTestFinder_probe_absent _ _ _ _ _ _ _ Hnotin).
Qed.

(** X8: of the contents of the directory, [YAMLTestFinder.probe] looks at
    one thing, whether "test.yaml" is among the files: the sub-directories
    and the other files change nothing. *)
Theorem YAMLTestFinder_probe_only_test_yaml
    self testsuite dirpath dirnames dirnames' filenames filenames' svc log :
  ("test.yaml" ∈ filenames <-> "test.yaml" ∈ filenames') ->
  YAMLTestFinder_probe self testsuite dirpath dirnames filenames svc log =
  YAMLTestFinder_probe self testsuite dirpath dirnames' filenames' svc log.
Proof.
  intros Hiff. unfold YAMLTestFinder_probe.
  by rewrite (bool_decide_ext _ _ Hiff).
Qed.

(** X9: each diagnostic of [YAMLTestFinder.probe] has one cause.  Unless
    the loader itself raises a [ProbingError], a [ProbingError] of the probe
    carries "invalid syntax for test.yaml" and the loader raised
    [YamlError], or "invalid format for test.yaml" and the loader returned a
    value that is neither [None] nor a mapping, or "cannot find driver" and
    the [driver] of the loaded mapping is a hashable value that is not a
    registered name. *)
Theorem YAMLTestFinder_probe_diagnostics
    self testsuite dirpath dirnames filenames svc log msg :
  (forall m, loaded svc dirpath <> Raised (ProbingError m)) ->
  (YAMLTestFinder_probe self testsuite dirpath dirnames filenames svc log).1 =
    Raised (ProbingError msg) ->
  msg ∈ probing_messages /\
  "test.yaml" ∈ filenames /\
  ((msg = "invalid syntax for test.yaml" /\
    exists m, loaded svc dirpath = Raised (YamlError m)) \/
   (msg = "invalid format for test.yaml" /\
    exists v, loaded svc dirpath = Returned v /\ v <> PyNone /\ is_Mapping v = false) \/
   (msg = "cannot find driver" /\
    exists d key, loaded svc dirpath = Returned (PyDict d) /\
                  d !! KStr "driver" = Some key /\
                  unhashable key = false /\
                  forall name, key = PyStr name ->
                               test_driver_map testsuite !! name = None)).
Proof.
  intros Hloader. unfold probing_messages.
  destruct (decide ("test.yaml" ∈ filenames)) as [Hin | Hnotin].
  - rewrite (YAMLTestFinder_probe_load _ _ _ _ _ _ _ Hin).
    probe_cases svc dirpath testsuite; intros Hmsg; try done;
      try (by exfalso; eapply Hloader);
      injection Hmsg as <-; (split; [set_solver |]); (split; [done |]);
      first
        [ left; split; [done |]; by eexists
        | right; left; split; [done |]; eexists; split; [reflexivity |]; by split
        | right; right; split; [done |]; eexists _, _; split; [reflexivity |];
          split; [by apply dict_get_lookup |]; split; [done |];
          intros ? [= <-]; done ].
  - by rewrite (YAMLTestFinder_probe_absent _ _ _ _ _ _ _ Hnotin).
Qed.

(** X10: a file that loads to [None] and a file that loads to the empty
    mapping give the same probe: the same result and the same calls. *)
Theorem YAMLTestFinder_probe_none_as_empty_mapping
    self testsuite dirpath dirnames filenames svc svc' log :
  Env_to_dict svc = Env_to_dict svc' ->
  loaded svc dirpath = Returned PyNone ->
  loaded svc' dirpath = Returned (PyDict ∅) ->
  YAMLTestFinder_probe self testsuite dirpath dirnames filenames svc log =
  YAMLTestFinder_probe self testsuite dirpath dirnames filenames svc' log.
Proof.
  intros Henv Hload Hload'.
  destruct (decide ("test.yaml" ∈ filenames)) as [Hin | Hnotin].
  - rewrite !(YAMLTestFinder_probe_load _ _ _ _ _ _ _ Hin), Hload, Hload'.
    cbv zeta; cbn match. rewrite dict_get_empty.
    unfold calls_to_load. by rewrite Henv.
  - by rewrite !(YAMLTestFinder_probe_absent _ _ _ _ _ _ _ Hnotin).
Qed.

End YAMLTestFinder_outcomes.

(** ** [AdaCoreLegacyTestFinder.probe], the ticket numbers *)

Lemma append_nil_r (a : string) : a +:+ "" = a.
Proof. induction a as [| x a IH]; simpl_append; [done | by rewrite IH]. Qed.

Lemma re_match_TN_RE (s : string) : re_match TN_RE s = ticket_number_prefix s.
Proof.
  destruct (ticket_number_prefix s) eqn:Ht.
  - by apply re_match_spec, TN_RE_prefix.
  - apply re_match_false_spec. rewrite TN_RE_prefix. by rewrite Ht.
Qed.

Lemma ticket_number_prefix_length (s : string) :
  ticket_number_prefix s = true -> (8 <= String.length s)%nat.
Proof.
  do 8 (destruct s as [| ? s]; [done |]). simpl. lia.
Qed.

Lemma ticket_number_prefix_append (s t : string) :
  ticket_number_prefix s = true -> ticket_number_prefix (s +:+ t) = true.
Proof.
  do 8 (destruct s as [| ? s]; [done |]). by simpl_append.
Qed.

Section AdaCoreLegacyTestFinder_ticket_numbers.

Context {TestDriver : Type}.
Implicit Types (self : AdaCoreLegacyTestFinder TestDriver).
Implicit Types (testsuite : TestsuiteCore TestDriver).
Implicit Types (dirpath : string) (dirnames filenames : list string).
Implicit Types (svc : Services) (log : list call).

(** X13: [AdaCoreLegacyTestFinder.probe] against the convention in words:
    it finds a test exactly when the base name of [dirpath] starts with two
    characters that are upper-case letters or digits, two digits, a hyphen
    and three characters that are upper-case letters or digits. *)
Theorem AdaCoreLegacyTestFinder_probe_ticket_number
    self testsuite dirpath dirnames filenames svc log :
  AdaCoreLegacyTestFinder_probe self testsuite dirpath dirnames filenames svc log =
  (Returned
     (if ticket_number_prefix (os_path_basename dirpath)
      then ResTest {| test_name := os_path_basename dirpath;
                      driver_cls := Some (finder_driver_cls self);
                      test_env := PyDict ∅;
                      test_dir := dirpath;
                      test_matcher := None |}
      else ResNone),
   log).
Proof. by rewrite AdaCoreLegacyTestFinder_probe_eq, re_match_TN_RE. Qed.

(** X14: a [dirpath] that ends with the separator has an empty base name,
    so [AdaCoreLegacyTestFinder.probe] declines it, whatever the name of the
    directory before the separator. *)
Theorem AdaCoreLegacyTestFinder_probe_trailing_sep
    self testsuite dirpath dirnames filenames svc log :
  endswith_sep dirpath = true ->
  AdaCoreLegacyTestFinder_probe self testsuite dirpath dirnames filenames svc log =
  (Returned ResNone, log).
Proof.
  intros Hsep. rewrite AdaCoreLegacyTestFinder_probe_eq.
  assert (os_path_basename dirpath = "") as ->; [| done].
  rewrite <- (append_nil_r dirpath) at 1.
  apply os_path_basename_append; [by right | done].
Qed.

(** X15: a directory whose base name has fewer than eight characters is
    declined by [AdaCoreLegacyTestFinder.probe]. *)
Theorem AdaCoreLegacyTestFinder_probe_short_name
    self testsuite dirpath dirnames filenames svc log :
  (String.length (os_path_basename dirpath) < 8)%nat ->
  AdaCoreLegacyTestFinder_probe self testsuite dirpath dirnames filenames svc log =
  (Returned ResNone, log).
Proof.
  intros Hlen. rewrite AdaCoreLegacyTestFinder_probe_eq, re_match_TN_RE.
  destruct (ticket_number_prefix _) eqn:Ht; [| done].
  apply ticket_number_prefix_length in Ht. lia.
Qed.

(** X16: the name of a test that [AdaCoreLegacyTestFinder.probe] returns
    is the last component of [dirpath]: it holds no separator, has at least
    eight characters, and [dirpath] is a directory part, empty or ending
    with the separator, followed by the name. *)
Theorem AdaCoreLegacyTestFinder_probe_returned_name
    self testsuite dirpath dirnames filenames svc log t :
  (AdaCoreLegacyTestFinder_probe self testsuite dirpath dirnames filenames svc log).1 =
    Returned (ResTest t) ->
  has_sep (test_name t) = false /\
  (8 <= String.length (test_name t))%nat /\
  test_dir t = dirpath /\
  exists d, dirpath = d +:+ test_name t /\ (d = "" \/ endswith_sep d = true).
Proof.
  rewrite AdaCoreLegacyTestFinder_probe_eq, re_match_TN_RE. simpl.
  destruct (ticket_number_prefix _) eqn:Ht; [| done].
  intros [= <-]. simpl.
  split; [| split; [by apply ticket_number_prefix_length | split; [done |]]].
  - destruct (path_split dirpath) as (d & b & -> & Hd & Hb).
    by rewrite (os_path_basename_append d b Hd Hb).
  - destruct (path_split dirpath) as (d & b & -> & Hd & Hb).
    rewrite (os_path_basename_append d b Hd Hb). eauto.
Qed.

(** X17: characters after a ticket number are tolerated.  When
    [AdaCoreLegacyTestFinder.probe] finds a test in [dirpath], it finds one
    in [dirpath] followed by any characters that hold no separator, and the
    name of that test is the name of the first one followed by them. *)
Theorem AdaCoreLegacyTestFinder_probe_suffix
    self testsuite dirpath dirnames filenames svc log t suffix :
  (AdaCoreLegacyTestFinder_probe self testsuite dirpath dirnames filenames svc log).1 =
    Returned (ResTest t) ->
  has_sep suffix = false ->
  AdaCoreLegacyTestFinder_probe self testsuite (dirpath +:+ suffix) dirnames filenames
    svc log =
  (Returned (ResTest {| test_name := test_name t +:+ suffix;
                        driver_cls := driver_cls t;
                        test_env := test_env t;
                        test_dir := dirpath +:+ suffix;
                        test_matcher := test_matcher t |}),
   log).
Proof.
  rewrite !AdaCoreLegacyTestFinder_probe_eq, !re_match_TN_RE. simpl.
  destruct (path_split dirpath) as (d & b & -> & Hd & Hb).
  rewrite (os_path_basename_append d b Hd Hb).
  intros Ht Hsuffix.
  rewrite string_append_assoc, os_path_basename_append;
    [| done | by rewrite has_sep_append, Hb, Hsuffix].
  destruct (ticket_number_prefix b) eqn:Hb'; [| done].
  injection Ht as <-. simpl.
  by rewrite ticket_number_prefix_append.
Qed.

(** X18: a finder built by [AdaCoreLegacyTestFinder(driver_cls)] gives
    that driver class to every test it finds, with an empty [test_env] and
    no [test_matcher]: the legacy format has no driver of its own. *)
Theorem AdaCoreLegacyTestFinder_init_probe
    (cls : TestDriver) testsuite dirpath dirnames filenames svc log t :
  (AdaCoreLegacyTestFinder_probe (AdaCoreLegacyTestFinder_init cls) testsuite dirpath
     dirnames filenames svc log).1 = Returned (ResTest t) ->
  driver_cls t = Some cls /\ test_env t = PyDict ∅ /\ test_matcher t = None.
Proof.
  rewrite AdaCoreLegacyTestFinder_probe_eq. simpl.
  destruct (re_match TN_RE _); [| done]. by intros [= <-].
Qed.

End AdaCoreLegacyTestFinder_ticket_numbers.

(** ** The further properties on the sample testsuite *)

Lemma YAMLTestFinder_probe_loader_error_sample :
  "test.yaml" ∈ ["test.yaml"] /\
  loaded sample_services "tests/missing" = Raised (OtherError "FileNotFoundError") /\
  (forall msg, OtherError "FileNotFoundError" <> YamlError msg) /\
  YAMLTestFinder_probe mkYAMLTestFinder sample_testsuite "tests/missing" [] ["test.yaml"]
    sample_services [] =
  (Raised (OtherError "FileNotFoundError"),
   [] ++ calls_to_load sample_services "tests/missing").
Proof.
  assert (Hin : "test.yaml" ∈ ["test.yaml"]) by by_evaluation.
  assert (Hload : loaded sample_services "tests/missing" =
                  Raised (OtherError "FileNotFoundError")) by reflexivity.
  assert (Hne : forall msg, OtherError "FileNotFoundError" <> YamlError msg)
    by (intros msg; discriminate).
  repeat (split; [assumption |]).
  exact (YAMLTestFinder_probe_loader_error mkYAMLTestFinder sample_testsuite
           "tests/missing" [] ["test.yaml"] sample_services [] _ Hin Hload Hne).
Defined.

Lemma YAMLTestFinder_probe_unhashable_driver_sample :
  "test.yaml" ∈ ["test.yaml"] /\
  loaded sample_services_edge "tests/list" = Returned (PyDict sample_list_env) /\
  sample_list_env !! KStr "driver" = Some (PyList [PyStr "diff"]) /\
  unhashable (PyList [PyStr "diff"]) = true /\
  exists msg,
    (YAMLTestFinder_probe mkYAMLTestFinder sample_testsuite "tests/list" [] ["test.yaml"]
       sample_services_edge []).1 = Raised (TypeError msg).
Proof.
  assert (Hin : "test.yaml" ∈ ["test.yaml"]) by by_evaluation.
  assert (Hload : loaded sample_services_edge "tests/list" =
                  Returned (PyDict sample_list_env)) by reflexivity.
  assert (Hdriver : sample_list_env !! KStr "driver" = Some (PyList [PyStr "diff"]))
    by reflexivity.
  assert (Hv : unhashable (PyList [PyStr "diff"]) = true) by reflexivity.
  repeat (split; [assumption |]).
  exact (proj1 (YAMLTestFinder_probe_unhashable_driver mkYAMLTestFinder sample_testsuite
                  "tests/list" [] ["test.yaml"] sample_services_edge [] _ _
                  Hin Hload Hdriver Hv)).
Defined.

Lemma YAMLTestFinder_probe_scalar_driver_sample :
  "test.yaml" ∈ ["test.yaml"] /\
  loaded sample_services_edge "tests/int" = Returned (PyDict sample_int_env) /\
  sample_int_env !! KStr "driver" = Some (PyInt 3) /\
  ((exists b, PyInt 3 = PyBool b) \/ (exists z, PyInt 3 = PyInt z)) /\
  YAMLTestFinder_probe mkYAMLTestFinder sample_testsuite "tests/int" [] ["test.yaml"]
    sample_services_edge [] =
  (Raised (ProbingError "cannot find driver"),
   [] ++ calls_to_load sample_services_edge "tests/int" ++ [CallDriverLookup (PyInt 3)]).
Proof.
  assert (Hin : "test.yaml" ∈ ["test.yaml"]) by by_evaluation.
  assert (Hload : loaded sample_services_edge "tests/int" =
                  Returned (PyDict sample_int_env)) by reflexivity.
  assert (Hdriver : sample_int_env !! KStr "driver" = Some (PyInt 3)) by reflexivity.
  assert (Hv : (exists b, PyInt 3 = PyBool b) \/ (exists z, PyInt 3 = PyInt z))
    by (right; exists 3; reflexivity).
  repeat (split; [assumption |]).
  exact (YAMLTestFinder_probe_scalar_driver mkYAMLTestFinder sample_testsuite
           "tests/int" [] ["test.yaml"] sample_services_edge [] _ _
           Hin Hload Hdriver Hv).
Defined.

Lemma YAMLTestFinder_probe_returned_test_sample :
  (YAMLTestFinder_probe mkYAMLTestFinder sample_testsuite "tests/known" ["src"]
     ["test.yaml"] sample_services []).1 = Returned (ResTest sample_known_test) /\
  test_dir sample_known_test = "tests/known" /\
  test_matcher sample_known_test = None.
Proof.
  assert (Hout : (YAMLTestFinder_probe mkYAMLTestFinder sample_testsuite "tests/known"
                    ["src"] ["test.yaml"] sample_services []).1 =
                 Returned (ResTest sample_known_test)) by reflexivity.
  split; [exact Hout |].
  pose proof (YAMLTestFinder_probe_returned_test mkYAMLTestFinder sample_testsuite
                "tests/known" ["src"] ["test.yaml"] sample_services [] _ Hout)
    as (_ & Hdir & _ & Hmatcher & _).
  split; [exact Hdir | exact Hmatcher].
Defined.

Lemma YAMLTestFinder_probe_returned_driver_sample :
  (YAMLTestFinder_probe mkYAMLTestFinder sample_testsuite "tests/known" ["src"]
     ["test.yaml"] sample_services []).1 = Returned (ResTest sample_known_test) /\
  exists d, test_env sample_known_test = PyDict d /\
    exists name, d !! KStr "driver" = Some (PyStr name) /\
                 test_driver_map sample_testsuite !! name = Some "DiffDriver".
Proof.
  assert (Hout : (YAMLTestFinder_probe mkYAMLTestFinder sample_testsuite "tests/known"
                    ["src"] ["test.yaml"] sample_services []).1 =
                 Returned (ResTest sample_known_test)) by reflexivity.
  split; [exact Hout |].
  exact (YAMLTestFinder_probe_returned_driver mkYAMLTestFinder sample_testsuite
           "tests/known" ["src"] ["test.yaml"] sample_services [] _ Hout).
Defined.

Lemma YAMLTestFinder_probe_only_test_yaml_sample :
  ("test.yaml" ∈ ["test.yaml"; "test.out"] <-> "test.yaml" ∈ ["a.adb"; "test.yaml"]) /\
  YAMLTestFinder_probe mkYAMLTestFinder sample_testsuite "tests/known" ["src"]
    ["test.yaml"; "test.out"] sample_services [] =
  YAMLTestFinder_probe mkYAMLTestFinder sample_testsuite "tests/known" []
    ["a.adb"; "test.yaml"] sample_services [].
Proof.
  assert (Hiff : "test.yaml" ∈ ["test.yaml"; "test.out"] <->
                 "test.yaml" ∈ ["a.adb"; "test.yaml"])
    by (split; intros _; by_evaluation).
  split; [exact Hiff |].
  exact (YAMLTestFinder_probe_only_test_yaml mkYAMLTestFinder sample_testsuite
           "tests/known" ["src"] [] ["test.yaml"; "test.out"] ["a.adb"; "test.yaml"]
           sample_services [] Hiff).
Defined.

Lemma YAMLTestFinder_probe_diagnostics_sample :
  (forall m, loaded sample_services "tests/seq" <> Raised (ProbingError m)) /\
  (YAMLTestFinder_probe mkYAMLTestFinder sample_testsuite "tests/seq" [] ["test.yaml"]
     sample_services []).1 = Raised (ProbingError "invalid format for test.yaml") /\
  "invalid format for test.yaml" ∈ probing_messages.
Proof.
  assert (Hloader : forall m, loaded sample_services "tests/seq" <>
                              Raised (ProbingError m))
    by (intros m H; vm_compute in H; discriminate H).
  assert (Hout : (YAMLTestFinder_probe mkYAMLTestFinder sample_testsuite "tests/seq" []
                    ["test.yaml"] sample_services []).1 =
                 Raised (ProbingError "invalid format for test.yaml")) by reflexivity.
  repeat (split; [assumption |]).
  exact (proj1 (YAMLTestFinder_probe_diagnostics mkYAMLTestFinder sample_testsuite
                  "tests/seq" [] ["test.yaml"] sample_services [] _ Hloader Hout)).
Defined.

Lemma YAMLTestFinder_probe_none_as_empty_mapping_sample :
  Env_to_dict sample_services = Env_to_dict sample_services_edge /\
  loaded sample_services "tests/empty" = Returned PyNone /\
  loaded sample_services_edge "tests/empty" = Returned (PyDict ∅) /\
  YAMLTestFinder_probe mkYAMLTestFinder sample_testsuite "tests/empty" [] ["test.yaml"]
    sample_services [] =
  YAMLTestFinder_probe mkYAMLTestFinder sample_testsuite "tests/empty" [] ["test.yaml"]
    sample_services_edge [].
Proof.
  assert (Henv : Env_to_dict sample_services = Env_to_dict sample_services_edge)
    by reflexivity.
  assert (Hload : loaded sample_services "tests/empty" = Returned PyNone) by reflexivity.
  assert (Hload' : loaded sample_services_edge "tests/empty" = Returned (PyDict ∅))
    by reflexivity.
  repeat (split; [assumption |]).
  exact (YAMLTestFinder_probe_none_as_empty_mapping mkYAMLTestFinder sample_testsuite
           "tests/empty" [] ["test.yaml"] sample_services sample_services_edge []
           Henv Hload Hload').
Defined.

Lemma AdaCoreLegacyTestFinder_probe_trailing_sep_sample :
  endswith_sep "tests/AB12-XYZ/" = true /\
  AdaCoreLegacyTestFinder_probe sample_legacy_finder sample_testsuite "tests/AB12-XYZ/"
    [] ["test.cmd"] sample_services [] =
  (Returned ResNone, []).
Proof.
  assert (Hsep : endswith_sep "tests/AB12-XYZ/" = true) by reflexivity.
  split; [exact Hsep |].
  exact (AdaCoreLegacyTestFinder_probe_trailing_sep sample_legacy_finder sample_testsuite
           "tests/AB12-XYZ/" [] ["test.cmd"] sample_services [] Hsep).
Defined.

Lemma AdaCoreLegacyTestFinder_probe_short_name_sample :
  (String.length (os_path_basename "tests/AB1-XYZ") < 8)%nat /\
  AdaCoreLegacyTestFinder_probe sample_legacy_finder sample_testsuite "tests/AB1-XYZ"
    [] ["test.cmd"] sample_services [] =
  (Returned ResNone, []).
Proof.
  assert (Hlen : (String.length (os_path_basename "tests/AB1-XYZ") < 8)%nat)
    by (vm_compute; lia).
  split; [exact Hlen |].
  exact (AdaCoreLegacyTestFinder_probe_short_name sample_legacy_finder sample_testsuite
           "tests/AB1-XYZ" [] ["test.cmd"] sample_services [] Hlen).
Defined.

Lemma AdaCoreLegacyTestFinder_probe_returned_name_sample :
  (AdaCoreLegacyTestFinder_probe sample_legacy_finder sample_testsuite "tests/AB12-XYZ"
     [] ["test.cmd"] sample_services []).1 = Returned (ResTest sample_legacy_test) /\
  has_sep (test_name sample_legacy_test) = false.
Proof.
  assert (Hout : (AdaCoreLegacyTestFinder_probe sample_legacy_finder sample_testsuite
                    "tests/AB12-XYZ" [] ["test.cmd"] sample_services []).1 =
                 Returned (ResTest sample_legacy_test)) by reflexivity.
  split; [exact Hout |].
  exact (proj1 (AdaCoreLegacyTestFinder_probe_returned_name sample_legacy_finder
                  sample_testsuite "tests/AB12-XYZ" [] ["test.cmd"] sample_services []
                  _ Hout)).
Defined.

Lemma AdaCoreLegacyTestFinder_probe_suffix_sample :
  (AdaCoreLegacyTestFinder_probe sample_legacy_finder sample_testsuite "tests/AB12-XYZ"
     [] ["test.cmd"] sample_services []).1 = Returned (ResTest sample_legacy_test) /\
  has_sep "-extra" = false /\
  AdaCoreLegacyTestFinder_probe sample_legacy_finder sample_testsuite
    ("tests/AB12-XYZ" +:+ "-extra") [] ["test.cmd"] sample_services [] =
  (Returned (ResTest {| test_name := test_name sample_legacy_test +:+ "-extra";
                        driver_cls := driver_cls sample_legacy_test;
                        test_env := test_env sample_legacy_test;
                        test_dir := "tests/AB12-XYZ" +:+ "-extra";
                        test_matcher := test_matcher sample_legacy_test |}),
   []).
Proof.
  assert (Hout : (AdaCoreLegacyTestFinder_probe sample_legacy_finder sample_testsuite
                    "tests/AB12-XYZ" [] ["test.cmd"] sample_services []).1 =
                 Returned (ResTest sample_legacy_test)) by reflexivity.
  assert (Hsuffix : has_sep "-extra" = false) by reflexivity.
  repeat (split; [assumption |]).
  exact (AdaCoreLegacyTestFinder_probe_suffix sample_legacy_finder sample_testsuite
           "tests/AB12-XYZ" [] ["test.cmd"] sample_services [] _ "-extra" Hout Hsuffix).
Defined.

Lemma AdaCoreLegacyTestFinder_init_probe_sample :
  (AdaCoreLegacyTestFinder_probe (AdaCoreLegacyTestFinder_init "LegacyDriver")
     sample_testsuite "tests/AB12-XYZ" [] ["test.cmd"] sample_services []).1 =
    Returned (ResTest sample_legacy_test) /\
  driver_cls sample_legacy_test = Some "LegacyDriver".
Proof.
  assert (Hout : (AdaCoreLegacyTestFinder_probe (AdaCoreLegacyTestFinder_init "LegacyDriver")
                    sample_testsuite "tests/AB12-XYZ" [] ["test.cmd"] sample_services
                    []).1 = Returned (ResTest sample_legacy_test)) by reflexivity.
  split; [exact Hout |].
  exact (proj1 (AdaCoreLegacyTestFinder_init_probe "LegacyDriver" sample_testsuite
                  "tests/AB12-XYZ" [] ["test.cmd"] sample_services [] _ Hout)).
Defined.
